(** * logstash_plugin: the Ansible module that installs or removes a
    Logstash plugin through the [logstash-plugin] executable.

    Shallow embedding of
    [lib/ansible/modules/monitoring/logstash_plugin.py].

    Python [str] values are Rocq [string]s, a character being a code
    point below 256; the keyword arguments handed
    to [exit_json] / [fail_json] and the global [PACKAGE_STATE_MAP] are
    finite maps keyed by strings, an optional module parameter
    ([default=None]) is an [option string], and the calls of
    [module.run_command] are threaded through an explicit environment
    that also records every command line that was executed. *)

From Stdlib Require Import ZArith Ascii.
From stdpp Require Import gmap strings list fin_maps.

Local Open Scope Z_scope.

(** ** Python string primitives used by the module *)

Module Py.

(** [len(s)] *)
Abbreviation len := String.length.

(** [sub] is a prefix of [s]: [s.startswith(sub)]. *)
Fixpoint startswith (s sub : string) : bool :=
  match sub, s with
  | EmptyString, _ => true
  | String _ _, EmptyString => false
  | String a sub', String b s' =>
      if Ascii.eqb a b then startswith s' sub' else false
  end.

(** [s.index(sub)]: the lowest position at which [sub] occurs in [s];
    [None] stands for the [ValueError] Python raises when there is no
    occurrence. *)
Fixpoint index (s sub : string) : option nat :=
  if startswith s sub then Some 0%nat
  else match s with
       | EmptyString => None
       | String _ s' => S <$> index s' sub
       end.

(** [s[n:]] for [0 <= n]. *)
Fixpoint slice_from (n : nat) (s : string) : string :=
  match n, s with
  | O, _ => s
  | S n', String _ s' => slice_from n' s'
  | S _, EmptyString => EmptyString
  end.

(** [c.isspace()], the class that [strip()] removes.  Of the white
    space of [str] these are the code points below 256: the tab, line
    feed, vertical tab, form feed and carriage return (9 to 13), the
    four separators 28 to 31, the space (32), the next-line control
    (133) and the no-break space (160). *)
Definition isspace (c : ascii) : bool :=
  match c with
  | "009" | "010" | "011" | "012" | "013"
  | "028" | "029" | "030" | "031"
  | " " | "133" | "160" => true
  | _ => false
  end%char.

(** [s.lstrip()] *)
Fixpoint lstrip (s : string) : string :=
  match s with
  | EmptyString => EmptyString
  | String c s' => if isspace c then lstrip s' else s
  end.

(** [s.rstrip()] *)
Fixpoint rstrip (s : string) : string :=
  match s with
  | EmptyString => EmptyString
  | String c s' =>
      match rstrip s' with
      | EmptyString => if isspace c then EmptyString else String c EmptyString
      | r => String c r
      end
  end.

(** [s.strip()] *)
Definition strip (s : string) : string := rstrip (lstrip s).

(** [sep.join(l)] *)
Definition join (sep : string) (l : list string) : string :=
  String.concat sep l.

(** Truth value of an optional string parameter: [None] and [""] are
    false, every other string is true. *)
Definition truthy (o : option string) : bool :=
  match o with
  | Some s => negb (String.eqb s "")
  | None => false
  end.

(** ["%s" % o] *)
Definition fmt_s (o : option string) : string :=
  match o with
  | Some s => s
  | None => "None"
  end.

(** Every character of [s] is white space. *)
Fixpoint all_space (s : string) : bool :=
  match s with
  | EmptyString => true
  | String c s' => isspace c && all_space s'
  end.

(** First and last character of a string, when it has one. *)
Definition first_char (s : string) : option ascii :=
  match s with
  | EmptyString => None
  | String c _ => Some c
  end.

Fixpoint last_char (s : string) : option ascii :=
  match s with
  | EmptyString => None
  | String c EmptyString => Some c
  | String _ s' => last_char s'
  end.

(** No white space at either end. *)
Definition trimmed (s : string) : Prop :=
  (forall c, first_char s = Some c -> isspace c = false) /\
  (forall c, last_char s = Some c -> isspace c = false).

End Py.

(** ** The module's pure part *)

(** [PACKAGE_STATE_MAP = dict(present="install", absent="remove")] *)
Definition PACKAGE_STATE_MAP : gmap string string :=
  list_to_map [("present", "install"); ("absent", "remove")].

(** [parse_error(string)] *)
Definition parse_error (string : String.string) : String.string :=
  let reason := "reason: " in
  match Py.index string reason with
  | Some i => Py.strip (Py.slice_from (i + Py.len reason) string)
  | None => string
  end.

(** The argument list [install_plugin] builds before it joins it. *)
Definition install_cmd_args (plugin_bin plugin_name : string)
    (version proxy_host proxy_port source : option string) : list string :=
  let source := if Py.truthy source then Py.fmt_s source else plugin_name in
  let cmd_args := [plugin_bin; PACKAGE_STATE_MAP !!! "present"; source] in
  let cmd_args :=
    if Py.truthy version
    then cmd_args ++ ["--version " +:+ Py.fmt_s version]
    else cmd_args in
  let cmd_args :=
    if Py.truthy proxy_host && Py.truthy proxy_port
    then cmd_args ++ ["-DproxyHost=" +:+ Py.fmt_s proxy_host +:+
                      " -DproxyPort=" +:+ Py.fmt_s proxy_port]
    else cmd_args in
  cmd_args.

Definition install_cmd (plugin_bin plugin_name : string)
    (version proxy_host proxy_port source : option string) : string :=
  Py.join " " (install_cmd_args plugin_bin plugin_name
                 version proxy_host proxy_port source).

(** The argument list and command line of [remove_plugin]. *)
Definition remove_cmd_args (plugin_bin plugin_name : string) : list string :=
  [plugin_bin; PACKAGE_STATE_MAP !!! "absent"; plugin_name].

Definition remove_cmd (plugin_bin plugin_name : string) : string :=
  Py.join " " (remove_cmd_args plugin_bin plugin_name).

(** The argument list and command line of [is_plugin_present]. *)
Definition list_cmd_args (plugin_bin plugin_name : string) : list string :=
  [plugin_bin; "list"; plugin_name].

Definition list_cmd (plugin_bin plugin_name : string) : string :=
  Py.join " " (list_cmd_args plugin_bin plugin_name).

(** ** The module object and its effects *)

(** A value of a keyword argument of [exit_json] / [fail_json]. *)
Inductive Value :=
| VBool (b : bool)
| VStr (s : string).

(** [module.params], restricted to the keys of the [argument_spec]. *)
Module Params.
Record t := {
  name : string;
  state : string;
  plugin_bin : string;
  proxy_host : option string;
  proxy_port : option string;
  version : option string;
  source : option string
}.
End Params.

Record AnsibleModule := {
  params : Params.t;
  check_mode : bool
}.

(** The only exception [main] can raise by itself: [changed] is read on
    line 196 without having been bound, when [state] is neither
    ["present"] nor ["absent"] (the [choices] of the argument
    specification exclude it). *)
Inductive PyExn := UnboundLocalError.

(** How a piece of the module ends: it returns, or it leaves the process
    through [exit_json] or [fail_json], or it raises. *)
Inductive Outcome (A : Type) :=
| Ret (a : A)
| ExitJson (kw : gmap string Value)
| FailJson (kw : gmap string Value)
| Raised (e : PyExn).
Arguments Ret {A} a.
Arguments ExitJson {A} kw.
Arguments FailJson {A} kw.
Arguments Raised {A} e.

(** The host the module runs on, and the command lines that
    [run_command] has executed so far, oldest first. *)
Record Env (World : Type) := {
  world : World;
  executed : list string
}.
Arguments world {World} e.
Arguments executed {World} e.

(** The two values of the [state] parameter, and the three things [main]
    can do once it has probed. *)
Inductive DesiredState := Present | Absent.

Definition state_name (d : DesiredState) : string :=
  match d with
  | Present => "present"
  | Absent => "absent"
  end.

Inductive Action := NoOp | Install | Remove.

#[global] Instance Action_eq_dec : EqDecision Action.
Proof. solve_decision. Defined.

(** The branch [main] takes on lines 188 to 194, as a function of the
    probe's answer and of the [state] parameter; [None] when no branch
    binds [changed]. *)
Definition decide_action (present : bool) (state : string) : option Action :=
  if (present && String.eqb state "present")
     || (String.eqb state "absent" && negb present)
  then Some NoOp
  else if String.eqb state "present" then Some Install
  else if String.eqb state "absent" then Some Remove
  else None.

(** ** Vocabulary of the statements *)

(** An optional parameter was given and is not the empty string. *)
Definition specified (o : option string) : Prop :=
  exists s, o = Some s /\ s <> "".

#[global] Instance specified_dec (o : option string) : Decision (specified o).
Proof.
  refine (match o with
          | Some s => cast_if_not (decide (s = ""))
          | None => right _
          end); unfold specified.
  - intros (? & [= <-] & ?). done.
  - eauto.
  - by intros (? & ? & ?).
Defined.

(** The token after [install]: the source when one is specified, the
    plugin name otherwise. *)
Definition source_token (plugin_name : string) (source : option string) : string :=
  match source with
  | Some s => if decide (s = "") then plugin_name else s
  | None => plugin_name
  end.

(** What a version adds to the command line. *)
Definition version_flag (version : option string) : string :=
  match version with
  | Some v => if decide (v = "") then "" else " --version " +:+ v
  | None => ""
  end.

(** The proxy flags for host [h] and port [p]. *)
Definition proxy_flags (h p : string) : string :=
  "-DproxyHost=" +:+ h +:+ " -DproxyPort=" +:+ p.

(** The [state] parameter is one of the [choices] of the argument
    specification, [PACKAGE_STATE_MAP.keys()]. *)
Definition valid_state (state : string) : Prop :=
  state ∈ dom PACKAGE_STATE_MAP.

(** The keyword arguments of the three ways [main] reports. *)
Definition noop_result (name state : string) : gmap string Value :=
  list_to_map [("changed", VBool false); ("name", VStr name);
               ("state", VStr state)].

Definition action_result (cmd name state out err : string) : gmap string Value :=
  list_to_map [("changed", VBool true); ("cmd", VStr cmd);
               ("name", VStr name); ("state", VStr state);
               ("stdout", VStr out); ("stderr", VStr err)].

Definition failure_result (reason : string) : gmap string Value :=
  {[ "msg" := VStr reason ]}.

Section Reconciler.

Context {World : Type}.

(** [module.run_command(cmd)] of [ansible.module_utils.basic], taken as
    a parameter: for every command line it yields the exit code, the
    standard output and the standard error of the command, and the host
    as the command leaves it. *)
Variable run_command : World -> string -> (Z * string * string) * World.

Definition M (A : Type) : Type := Env World -> Outcome A * Env World.

#[local] Instance M_ret : MRet M := fun A a env => (Ret a, env).

#[local] Instance M_bind : MBind M := fun A B f c env =>
  match c env with
  | (Ret a, env') => f a env'
  | (ExitJson kw, env') => (ExitJson kw, env')
  | (FailJson kw, env') => (FailJson kw, env')
  | (Raised e, env') => (Raised e, env')
  end.

(** [module.exit_json] and [module.fail_json] report their
    keyword arguments and leave the process: what follows the call is
    not run. *)
Definition exit_json {A} (kw : gmap string Value) : M A :=
  fun env => (ExitJson kw, env).

Definition fail_json {A} (kw : gmap string Value) : M A :=
  fun env => (FailJson kw, env).

Definition raise {A} (e : PyExn) : M A :=
  fun env => (Raised e, env).

Definition call_run_command (cmd : string) : M (Z * string * string) :=
  fun env =>
    let '(r, w) := run_command (world env) cmd in
    (Ret r, {| world := w; executed := executed env ++ [cmd] |}).

(** [is_plugin_present(module, plugin_bin, plugin_name)] *)
Definition is_plugin_present (module : AnsibleModule)
    (plugin_bin plugin_name : string) : M bool :=
  let cmd_args := [plugin_bin; "list"; plugin_name] in
  '(rc, out, err) ← call_run_command (Py.join " " cmd_args);
  mret (rc =? 0).

(** [install_plugin(module, plugin_bin, plugin_name, version,
    proxy_host, proxy_port, source)] *)
Definition install_plugin (module : AnsibleModule)
    (plugin_bin plugin_name : string)
    (version proxy_host proxy_port source : option string)
  : M (bool * string * string * string) :=
  let cmd := Py.join " " (install_cmd_args plugin_bin plugin_name
                            version proxy_host proxy_port source) in
  '(rc, out, err) ←
    (if check_mode module
     then mret (0, "check mode", "")
     else call_run_command cmd);
  _ ← (if negb (rc =? 0)
       then let reason := parse_error out in
            fail_json (list_to_map [("msg", VStr reason)])
       else mret ());
  mret (true, cmd, out, err).

(** [remove_plugin(module, plugin_bin, plugin_name)] *)
Definition remove_plugin (module : AnsibleModule)
    (plugin_bin plugin_name : string)
  : M (bool * string * string * string) :=
  let cmd_args := [plugin_bin; PACKAGE_STATE_MAP !!! "absent"; plugin_name] in
  let cmd := Py.join " " cmd_args in
  '(rc, out, err) ←
    (if check_mode module
     then mret (0, "check mode", "")
     else call_run_command cmd);
  _ ← (if negb (rc =? 0)
       then let reason := parse_error out in
            fail_json (list_to_map [("msg", VStr reason)])
       else mret ());
  mret (true, cmd, out, err).

(** [main()], after the module object has been built from the argument
    specification. *)
Definition main (module : AnsibleModule) : M unit :=
  let name := Params.name (params module) in
  let state := Params.state (params module) in
  let plugin_bin := Params.plugin_bin (params module) in
  let proxy_host := Params.proxy_host (params module) in
  let proxy_port := Params.proxy_port (params module) in
  let version := Params.version (params module) in
  let source := Params.source (params module) in
  present ← is_plugin_present module plugin_bin name;
  _ ← (if (present && String.eqb state "present")
          || (String.eqb state "absent" && negb present)
       then exit_json (list_to_map [("changed", VBool false);
                                    ("name", VStr name);
                                    ("state", VStr state)])
       else mret ());
  '(changed, cmd, out, err) ←
    (if String.eqb state "present"
     then install_plugin module plugin_bin name version
            proxy_host proxy_port source
     else if String.eqb state "absent"
     then remove_plugin module plugin_bin name
     else raise UnboundLocalError);
  exit_json (list_to_map [("changed", VBool changed);
                          ("cmd", VStr cmd);
                          ("name", VStr name);
                          ("state", VStr state);
                          ("stdout", VStr out);
                          ("stderr", VStr err)]).

(** One run of the module on a host, with an empty execution record. *)
Definition reconcile (module : AnsibleModule) (w : World)
  : Outcome unit * Env World :=
  main module {| world := w; executed := [] |}.

(** What the probe of [module] answers on host [w], and the host it
    leaves. *)
Definition probe_rc (module : AnsibleModule) (w : World) : Z :=
  (run_command w (list_cmd (Params.plugin_bin (params module))
                    (Params.name (params module)))).1.1.1.

Definition probed_present (module : AnsibleModule) (w : World) : bool :=
  probe_rc module w =? 0.

Definition after_probe (module : AnsibleModule) (w : World) : World :=
  (run_command w (list_cmd (Params.plugin_bin (params module))
                    (Params.name (params module)))).2.

(** The command line of the corrective action that [state] asks for. *)
Definition corrective_cmd (module : AnsibleModule) : string :=
  let p := params module in
  if String.eqb (Params.state p) "present"
  then install_cmd (Params.plugin_bin p) (Params.name p) (Params.version p)
         (Params.proxy_host p) (Params.proxy_port p) (Params.source p)
  else remove_cmd (Params.plugin_bin p) (Params.name p).

(** The [changed] flag of an outcome, when it has one. *)
Definition changed_of {A} (o : Outcome A) : option bool :=
  match o with
  | ExitJson kw =>
      match kw !! "changed" with
      | Some (VBool b) => Some b
      | _ => None
      end
  | _ => None
  end.

(** What running a corrective command line [cmd] from [env] gives the
    caller of [install_plugin] or [remove_plugin]. *)
Definition run_step (module : AnsibleModule) (cmd : string) (env : Env World)
  : Outcome (bool * string * string * string) * Env World :=
  if check_mode module
  then (Ret (true, cmd, "check mode", ""), env)
  else
    let r := run_command (world env) cmd in
    let env' := {| world := r.2; executed := executed env ++ [cmd] |} in
    if r.1.1.1 =? 0
    then (Ret (true, cmd, r.1.1.2, r.1.2), env')
    else (FailJson (failure_result (parse_error r.1.1.2)), env').

(** The run of a corrective command line [cmd] from [env], as [main]
    reports it. *)
Definition corrective_step (module : AnsibleModule) (cmd : string)
    (env : Env World) : Outcome unit * Env World :=
  let name := Params.name (params module) in
  let state := Params.state (params module) in
  if check_mode module
  then (ExitJson (action_result cmd name state "check mode" ""), env)
  else
    let '(rc, out, err, w) := run_command (world env) cmd in
    let env' := {| world := w; executed := executed env ++ [cmd] |} in
    if rc =? 0
    then (ExitJson (action_result cmd name state out err), env')
    else (FailJson (failure_result (parse_error out)), env').

(** The environment right after the probe of a run started on [w]. *)
Definition probed_env (module : AnsibleModule) (w : World) : Env World :=
  {| world := after_probe module w;
     executed := [list_cmd (Params.plugin_bin (params module))
                    (Params.name (params module))] |}.

(** Exit code, output and host after the corrective command has been
    run on the host the probe left. *)
Definition corrective_rc (module : AnsibleModule) (w : World) : Z :=
  (run_command (after_probe module w) (corrective_cmd module)).1.1.1.

Definition corrective_out (module : AnsibleModule) (w : World) : string :=
  (run_command (after_probe module w) (corrective_cmd module)).1.1.2.

Definition corrective_err (module : AnsibleModule) (w : World) : string :=
  (run_command (after_probe module w) (corrective_cmd module)).1.2.

Definition after_corrective (module : AnsibleModule) (w : World) : World :=
  (run_command (after_probe module w) (corrective_cmd module)).2.

Definition corrected_env (module : AnsibleModule) (w : World) : Env World :=
  {| world := after_corrective module w;
     executed := [list_cmd (Params.plugin_bin (params module))
                    (Params.name (params module));
                  corrective_cmd module] |}.

(** The [list] command does not change what a later [list] answers. *)
Definition list_is_read_only (module : AnsibleModule) : Prop :=
  forall w, probed_present module (after_probe module w)
            = probed_present module w.

(** After a corrective command that exited with 0, the [list] command
    reports the presence that [state] asks for. *)
Definition list_reflects_mutation (module : AnsibleModule) : Prop :=
  forall w,
    (run_command w (corrective_cmd module)).1.1.1 = 0 ->
    probed_present module (run_command w (corrective_cmd module)).2
    = String.eqb (Params.state (params module)) "present".

(** The second of two runs in succession reports [changed=false]. *)
Definition second_run_unchanged (module : AnsibleModule) (w : World) : Prop :=
  changed_of (reconcile module (world (reconcile module w).2)).1 = Some false.

End Reconciler.

(** ** Two small executables to run the module against *)

(** A plugin manager that keeps the list of installed plugins and whose
    package mirror is out of reach for the next [outages] installations. *)
Module Tool.

Record t := {
  installed : list string;
  outages : nat
}.

Definition run (w : t) (cmd : string) : (Z * string * string) * t :=
  match String.words cmd with
  | _ :: sub :: n :: _ =>
      if String.eqb sub "list" then
        if bool_decide (n ∈ installed w)
        then ((0, n, ""), w)
        else ((1, "ERROR: No plugins found", ""), w)
      else if String.eqb sub "install" then
        match outages w with
        | S k =>
            ((1, "ERROR: Installation aborted, reason: mirror unreachable ", ""),
             {| installed := installed w; outages := k |})
        | O =>
            ((0, "Installation successful", ""),
             {| installed := n :: installed w; outages := O |})
        end
      else if String.eqb sub "remove" then
        if bool_decide (n ∈ installed w)
        then ((0, "Successfully removed " +:+ n, ""),
              {| installed := filter (fun x => x <> n) (installed w);
                 outages := outages w |})
        else ((1, "ERROR: plugin has not been previously installed", ""), w)
      else ((2, "", "unknown command"), w)
  | _ => ((2, "", "usage: logstash-plugin <command> <plugin>"), w)
  end.

Definition default_params (name state : string) : Params.t :=
  {| Params.name := name;
     Params.state := state;
     Params.plugin_bin := "/usr/share/logstash/bin/logstash-plugin";
     Params.proxy_host := None;
     Params.proxy_port := None;
     Params.version := None;
     Params.source := None |}.

Definition module (name state : string) (check : bool) : AnsibleModule :=
  {| params := default_params name state; check_mode := check |}.

(** A host without plugins and with a reachable mirror. *)
Definition empty : t := {| installed := []; outages := 0 |}.

(** A host without plugins whose mirror is out of reach once. *)
Definition offline : t := {| installed := []; outages := 1 |}.

End Tool.

(** An executable that holds one plugin and whose [list] command is not
    read-only: it answers, and then drops the plugin. *)
Module Forgetful.

Definition run (w : bool) (cmd : string) : (Z * string * string) * bool :=
  match String.words cmd with
  | _ :: sub :: _ =>
      if String.eqb sub "list"
      then ((if w then 0 else 1, "", ""), false)
      else if String.eqb sub "install" then ((0, "Installation successful", ""), true)
      else if String.eqb sub "remove" then ((0, "Successfully removed", ""), false)
      else ((2, "", "unknown command"), w)
  | _ => ((2, "", "usage"), w)
  end.

End Forgetful.

(** * Properties *)

(** ** Strings *)

Module PyFacts.
Import Py.

Lemma app_nil_l (s : string) : "" +:+ s = s.
Proof. reflexivity. Qed.

Lemma app_cons (c : ascii) (s t : string) :
  String c s +:+ t = String c (s +:+ t).
Proof. reflexivity. Qed.

Lemma app_nil_r (s : string) : s +:+ "" = s.
Proof. induction s as [|c s IH]; [done|]. by rewrite app_cons, IH. Qed.

Lemma app_assoc (s t u : string) : (s +:+ t) +:+ u = s +:+ t +:+ u.
Proof. induction s as [|c s IH]; [done|]. by rewrite !app_cons, IH. Qed.

Lemma length_app (s t : string) :
  len (s +:+ t) = (len s + len t)%nat.
Proof. induction s as [|c s IH]; [done|]. rewrite app_cons. simpl. by rewrite IH. Qed.

Lemma startswith_app (sub post : string) : startswith (sub +:+ post) sub = true.
Proof.
  induction sub as [|c sub IH]; [by destruct post|].
  rewrite app_cons. simpl. by rewrite Ascii.eqb_refl.
Qed.

Lemma startswith_inv (s sub : string) :
  startswith s sub = true -> exists post, s = sub +:+ post.
Proof.
  revert s. induction sub as [|c sub IH]; intros s H.
  - by exists s.
  - destruct s as [|b s]; [done|]. simpl in H.
    destruct (Ascii.eqb c b) eqn:E; [|done].
    apply Ascii.eqb_eq in E as ->.
    destruct (IH _ H) as [post ->]. by exists post.
Qed.

Lemma slice_from_app (pre post : string) :
  slice_from (len pre) (pre +:+ post) = post.
Proof. induction pre as [|c pre IH]; [done|]. rewrite app_cons. simpl. exact IH. Qed.

(** [index] returns the position of the first occurrence. *)
Lemma index_Some (s sub : string) (i : nat) :
  index s sub = Some i ->
  exists pre post,
    s = pre +:+ sub +:+ post /\ len pre = i /\
    forall pre' post', s = pre' +:+ sub +:+ post' -> (i <= len pre')%nat.
Proof.
  revert i. induction s as [|c s IH]; intros i H.
  - cbn [index] in H. destruct (startswith "" sub) eqn:E; [|done].
    injection H as <-. apply startswith_inv in E as [post E].
    exists "", post. split; [done|]. split; [done|]. intros; lia.
  - cbn [index] in H. destruct (startswith (String c s) sub) eqn:E.
    + injection H as <-. apply startswith_inv in E as [post E].
      exists "", post. split; [done|]. split; [done|]. intros; lia.
    + destruct (index s sub) as [j|] eqn:Ej; [|done].
      injection H as <-.
      destruct (IH j eq_refl) as (pre & post & -> & Hlen & Hfirst).
      exists (String c pre), post. split; [done|].
      split; [simpl; by rewrite Hlen|].
      intros [|c' pre'] post' Heq.
      * rewrite app_nil_l in Heq. rewrite Heq, startswith_app in E. done.
      * rewrite app_cons in Heq. injection Heq as -> Heq.
        simpl. apply Hfirst in Heq. lia.
Qed.

(** [index] raises only when there is no occurrence at all. *)
Lemma index_None (s sub : string) :
  index s sub = None -> forall pre post, s <> pre +:+ sub +:+ post.
Proof.
  induction s as [|c s IH]; intros H pre post Heq.
  - cbn [index] in H. destruct (startswith "" sub) eqn:E; [done|].
    destruct pre; [|done]. rewrite app_nil_l in Heq.
    by rewrite Heq, startswith_app in E.
  - cbn [index] in H. destruct (startswith (String c s) sub) eqn:E; [done|].
    destruct (index s sub) eqn:Ej; [done|].
    destruct pre as [|c' pre].
    + rewrite app_nil_l in Heq. by rewrite Heq, startswith_app in E.
    + rewrite app_cons in Heq. injection Heq as -> Heq. by eapply IH.
Qed.

Lemma lstrip_spec (s : string) :
  exists l, s = l +:+ lstrip s /\ all_space l = true /\
    forall c, first_char (lstrip s) = Some c -> isspace c = false.
Proof.
  induction s as [|c s (l & Hs & Hl & Hf)].
  - exists "". by split_and!.
  - simpl. destruct (isspace c) eqn:E.
    + exists (String c l). rewrite app_cons, <- Hs. split_and!; [done| |done].
      simpl. by rewrite E, Hl.
    + exists "". split_and!; [done..|]. simpl. by intros ? [= <-].
Qed.

Lemma rstrip_spec (s : string) :
  exists r, s = rstrip s +:+ r /\ all_space r = true /\
    (forall c, last_char (rstrip s) = Some c -> isspace c = false) /\
    (forall c, first_char s = Some c -> isspace c = false ->
               first_char (rstrip s) = Some c).
Proof.
  induction s as [|c s (r & Hs & Hr & Hlast & Hfirst)].
  - exists "". by split_and!.
  - simpl. destruct (rstrip s) as [|c' s'] eqn:E.
    + rewrite app_nil_l in Hs. subst r. destruct (isspace c) eqn:Ec.
      * exists (String c s). split_and!; [done| |done|].
        -- simpl. by rewrite Ec, Hr.
        -- intros ? [= <-]. congruence.
      * exists s. split_and!; [done..| |done]. simpl. by intros ? [= <-].
    + exists r. rewrite app_cons, <- Hs. split_and!; [done..| |done].
      intros x Hx. apply Hlast. by destruct s'.
Qed.

(** [strip] removes a run of white space at each end and nothing else. *)
Lemma strip_spec (s : string) :
  exists l r, s = l +:+ strip s +:+ r /\
    all_space l = true /\ all_space r = true /\ trimmed (strip s).
Proof.
  destruct (lstrip_spec s) as (l & Hs & Hl & Hf).
  destruct (rstrip_spec (lstrip s)) as (r & Hs' & Hr & Hlast & Hfirst).
  exists l, r. unfold strip, trimmed.
  rewrite <- Hs', <- Hs. split_and!; [done..| |done].
  intros c Hc. destruct (lstrip s) as [|c0 s0] eqn:E; [done|].
  destruct (isspace c0) eqn:E0.
  - specialize (Hf c0 eq_refl). congruence.
  - specialize (Hfirst c0 eq_refl E0). congruence.
Qed.

End PyFacts.

(** ** Command lines *)

Lemma truthy_specified (o : option string) :
  Py.truthy o = true <-> specified o.
Proof.
  unfold specified. destruct o as [s|]; simpl.
  - destruct (String.eqb_spec s ""); simpl; split; try done.
    + intros (? & [= <-] & ?). done.
    + eauto.
  - split; [done|]. by intros (? & ? & ?).
Qed.

Lemma truthy_unspecified (o : option string) :
  Py.truthy o = false <-> ~ specified o.
Proof.
  rewrite <- truthy_specified. by destruct (Py.truthy o).
Qed.

Lemma subcommand_present : PACKAGE_STATE_MAP !!! "present" = "install".
Proof. reflexivity. Qed.

Lemma subcommand_absent : PACKAGE_STATE_MAP !!! "absent" = "remove".
Proof. reflexivity. Qed.

Lemma valid_state_iff (state : string) :
  valid_state state <-> state = "present" \/ state = "absent".
Proof.
  unfold valid_state, PACKAGE_STATE_MAP. simpl.
  rewrite !dom_insert_L, dom_empty_L, !elem_of_union, !elem_of_singleton.
  split; [intros [?|[?|?%elem_of_empty]]; tauto | tauto].
Qed.

Lemma valid_state_name (d : DesiredState) : valid_state (state_name d).
Proof. apply valid_state_iff. destruct d; auto. Qed.

Lemma valid_state_inv (state : string) :
  valid_state state -> exists d, state = state_name d.
Proof.
  intros [-> | ->]%valid_state_iff; [by exists Present | by exists Absent].
Qed.

Lemma remove_cmd_eq (plugin_bin plugin_name : string) :
  remove_cmd plugin_bin plugin_name = plugin_bin +:+ " remove " +:+ plugin_name.
Proof. reflexivity. Qed.

Lemma list_cmd_eq (plugin_bin plugin_name : string) :
  list_cmd plugin_bin plugin_name = plugin_bin +:+ " list " +:+ plugin_name.
Proof. reflexivity. Qed.

(** The command line of [install_plugin], piece by piece. *)
Lemma install_cmd_eq (plugin_bin plugin_name : string)
    (version proxy_host proxy_port source : option string) :
  install_cmd plugin_bin plugin_name version proxy_host proxy_port source
  = plugin_bin +:+ " install " +:+ source_token plugin_name source +:+
    version_flag version +:+
    (if Py.truthy proxy_host && Py.truthy proxy_port
     then " " +:+ proxy_flags (Py.fmt_s proxy_host) (Py.fmt_s proxy_port)
     else "").
Proof.
  unfold install_cmd, install_cmd_args, source_token, version_flag.
  rewrite subcommand_present.
  assert (Hne : forall x : string, x <> "" -> String.eqb x "" = false)
    by (intros x; apply String.eqb_neq).
  destruct (Py.truthy proxy_host && Py.truthy proxy_port);
    destruct source as [s|], version as [v|]; simpl;
    try (destruct (decide (s = "")) as [->|Hs]; [|rewrite (Hne s Hs)]);
    try (destruct (decide (v = "")) as [->|Hv]; [|rewrite (Hne v Hv)]);
    simpl; rewrite ?PyFacts.app_nil_r, ?PyFacts.app_assoc; reflexivity.
Qed.

Lemma install_cmd_no_proxy (plugin_bin plugin_name : string)
    (version source : option string) :
  install_cmd plugin_bin plugin_name version None None source
  = plugin_bin +:+ " install " +:+ source_token plugin_name source +:+
    version_flag version.
Proof. by rewrite install_cmd_eq, PyFacts.app_nil_r. Qed.

Lemma install_cmd_proxy (plugin_bin plugin_name : string)
    (version proxy_host proxy_port source : option string) :
  install_cmd plugin_bin plugin_name version proxy_host proxy_port source
  = install_cmd plugin_bin plugin_name version None None source +:+
    (if Py.truthy proxy_host && Py.truthy proxy_port
     then " " +:+ proxy_flags (Py.fmt_s proxy_host) (Py.fmt_s proxy_port)
     else "").
Proof.
  by rewrite install_cmd_no_proxy, install_cmd_eq, !PyFacts.app_assoc.
Qed.

Lemma app_eq_self (s t : string) : s +:+ t = s -> t = "".
Proof.
  intros H. apply (inj (String.app s)). by rewrite PyFacts.app_nil_r.
Qed.

Lemma parse_error_found (out pre post : string) :
  out = pre +:+ "reason: " +:+ post ->
  (forall pre' post', out = pre' +:+ "reason: " +:+ post' ->
                      (Py.len pre <= Py.len pre')%nat) ->
  parse_error out = Py.strip post.
Proof.
  intros Hout Hfirst. unfold parse_error.
  destruct (Py.index out "reason: ") as [i|] eqn:E.
  - destruct (PyFacts.index_Some _ _ _ E) as (pre0 & post0 & Hout0 & Hlen & Hmin).
    assert (i = Py.len pre) as ->.
    { apply Nat.le_antisymm; [exact (Hmin pre post Hout)|].
      rewrite <- Hlen. exact (Hfirst pre0 post0 Hout0). }
    f_equal. rewrite Hout, <- PyFacts.app_assoc.
    replace (Py.len pre + Py.len "reason: ")%nat
      with (Py.len (pre +:+ "reason: ")) by apply PyFacts.length_app.
    apply PyFacts.slice_from_app.
  - by destruct (PyFacts.index_None _ _ E pre post).
Qed.

(** The white space of [strip()], by code point. *)
Lemma isspace_class (c : ascii) :
  Py.isspace c
  = bool_decide (N_of_ascii c ∈ [9; 10; 11; 12; 13; 28; 29; 30; 31; 32; 133; 160]%N).
Proof. by destruct c as [[] [] [] [] [] [] [] []]. Qed.

(** C2. Error-reason extraction.  Either the output contains the marker
    ["reason: "], and then the message is what follows the first
    occurrence of the marker, stripped of the white space at its two ends
    (nothing else is removed, and what is left has no white space at
    either end); or the marker does not occur and the message is the
    output itself.  White space is the class of [str.strip()]: the code
    points 9 to 13, 28 to 31, 32, 133 and 160.  On
    ["... reason: disk full"] the message is ["disk full"], also when
    white space of any of these kinds surrounds it, and only the first
    marker counts. *)
Theorem parse_error_spec (out : string) :
  ((exists pre post l r,
      out = pre +:+ "reason: " +:+ post /\
      (forall pre' post', out = pre' +:+ "reason: " +:+ post' ->
                          (Py.len pre <= Py.len pre')%nat) /\
      parse_error out = Py.strip post /\
      post = l +:+ parse_error out +:+ r /\
      Py.all_space l = true /\ Py.all_space r = true /\
      Py.trimmed (parse_error out))
   \/
   ((forall pre post, out <> pre +:+ "reason: " +:+ post) /\
    parse_error out = out))
  /\ (forall c,
        Py.isspace c
        = bool_decide
            (N_of_ascii c ∈ [9; 10; 11; 12; 13; 28; 29; 30; 31; 32; 133; 160]%N))
  /\ parse_error "... reason: disk full" = "disk full"
  /\ parse_error
       ("ERROR: reason: " +:+
        String "028" (String "009" (String " " (String "160"
          ("disk full" +:+
           String "013" (String "010" (String "133" (String "031" ""))))))))
     = "disk full"
  /\ parse_error "reason: disk  full reason: again " = "disk  full reason: again"
  /\ parse_error " Installation aborted " = " Installation aborted ".
Proof.
  split_and!; [|apply isspace_class|reflexivity..].
  destruct (Py.index out "reason: ") as [i|] eqn:E.
  - left.
    destruct (PyFacts.index_Some _ _ _ E) as (pre & post & Hout & Hlen & Hmin).
    assert (Hpe : parse_error out = Py.strip post).
    { apply (parse_error_found out pre post Hout).
      intros pre' post' H'. rewrite Hlen. by eapply Hmin. }
    destruct (PyFacts.strip_spec post) as (l & r & Hpost & Hl & Hr & Htrim).
    exists pre, post, l, r. rewrite Hpe.
    split_and!; try done. intros pre' post' H'. rewrite Hlen. by eapply Hmin.
  - right. split; [by apply PyFacts.index_None|].
    unfold parse_error. by rewrite E.
Qed.

(** C7. The command line of an installation is
    [<plugin_bin> install <source-or-name>], followed by
    [--version <version>] when a version is specified, and then by the
    proxy flags if any; without a source the token after [install] is the
    plugin name. *)
Theorem install_command_line (plugin_bin plugin_name : string)
    (version proxy_host proxy_port source : option string) :
  install_cmd plugin_bin plugin_name None None None source
    = plugin_bin +:+ " install " +:+ source_token plugin_name source /\
  install_cmd plugin_bin plugin_name version None None source
    = plugin_bin +:+ " install " +:+ source_token plugin_name source +:+
      version_flag version /\
  (exists proxy, install_cmd plugin_bin plugin_name version
                   proxy_host proxy_port source
     = plugin_bin +:+ " install " +:+ source_token plugin_name source +:+
       version_flag version +:+ proxy) /\
  install_cmd plugin_bin plugin_name None None None None
    = plugin_bin +:+ " install " +:+ plugin_name /\
  take 3 (install_cmd_args plugin_bin plugin_name version
            proxy_host proxy_port source)
    = [plugin_bin; "install"; source_token plugin_name source] /\
  drop 3 (install_cmd_args plugin_bin plugin_name version None None source)
    = (if decide (specified version)
       then ["--version " +:+ Py.fmt_s version] else []).
Proof.
  split_and!.
  - by rewrite install_cmd_no_proxy, PyFacts.app_nil_r.
  - apply install_cmd_no_proxy.
  - eexists. apply install_cmd_eq.
  - by rewrite install_cmd_no_proxy, PyFacts.app_nil_r.
  - unfold install_cmd_args, source_token. rewrite subcommand_present.
    destruct (Py.truthy version), (Py.truthy proxy_host && Py.truthy proxy_port);
      destruct source as [s|]; simpl; try done;
      destruct (decide (s = "")) as [->|Hs]; try done;
      by rewrite (proj2 (String.eqb_neq s "") Hs).
  - unfold install_cmd_args. rewrite subcommand_present.
    destruct (Py.truthy version) eqn:E; simpl.
    + apply truthy_specified in E. by rewrite decide_True by done.
    + apply truthy_unspecified in E. by rewrite decide_False by done.
Qed.

Lemma truthy_both (a b : option string) :
  Py.truthy a && Py.truthy b = true <-> specified a /\ specified b.
Proof. by rewrite andb_true_iff, !truthy_specified. Qed.

Lemma install_cmd_args_proxy (plugin_bin plugin_name : string)
    (version proxy_host proxy_port source : option string) :
  install_cmd_args plugin_bin plugin_name version proxy_host proxy_port source
  = install_cmd_args plugin_bin plugin_name version None None source ++
    (if Py.truthy proxy_host && Py.truthy proxy_port
     then [proxy_flags (Py.fmt_s proxy_host) (Py.fmt_s proxy_port)]
     else []).
Proof.
  unfold install_cmd_args. rewrite subcommand_present.
  destruct (Py.truthy proxy_host && Py.truthy proxy_port); simpl;
    by rewrite ?app_nil_r.
Qed.

(** C3. The proxy flags [-DproxyHost=<h> -DproxyPort=<p>] are appended
    to the command line of an installation if and only if the proxy host
    and the proxy port are both specified (given and not empty); with
    only one of the two the command line is the one without proxy. *)
Theorem proxy_flags_iff (plugin_bin plugin_name : string)
    (version proxy_host proxy_port source : option string) :
  let base := install_cmd plugin_bin plugin_name version None None source in
  let cmd := install_cmd plugin_bin plugin_name version
               proxy_host proxy_port source in
  ((exists h p, cmd = base +:+ " " +:+ proxy_flags h p)
   <-> specified proxy_host /\ specified proxy_port) /\
  (forall h p, proxy_host = Some h -> proxy_port = Some p ->
               h <> "" -> p <> "" ->
               cmd = base +:+ " " +:+ proxy_flags h p) /\
  (~ (specified proxy_host /\ specified proxy_port) -> cmd = base) /\
  install_cmd plugin_bin plugin_name version proxy_host None source = base /\
  install_cmd plugin_bin plugin_name version None proxy_port source = base /\
  install_cmd_args plugin_bin plugin_name version proxy_host proxy_port source
  = install_cmd_args plugin_bin plugin_name version None None source ++
    (if decide (specified proxy_host /\ specified proxy_port)
     then [proxy_flags (Py.fmt_s proxy_host) (Py.fmt_s proxy_port)]
     else []).
Proof.
  intros base cmd. subst base cmd.
  rewrite (install_cmd_proxy _ _ _ proxy_host proxy_port),
          (install_cmd_proxy _ _ _ proxy_host None),
          (install_cmd_proxy _ _ _ None proxy_port),
          install_cmd_args_proxy.
  rewrite andb_false_r. cbn [Py.truthy andb].
  rewrite PyFacts.app_nil_r.
  destruct (Py.truthy proxy_host && Py.truthy proxy_port) eqn:E.
  - apply truthy_both in E as Hboth.
    rewrite decide_True by done.
    destruct Hboth as [(h & -> & Hh) (p & -> & Hp)].
    split_and!; try done.
    + split; [intros _; split; by eexists | intros _; by exists h, p].
    + by intros ?? [= <-] [= <-] _ _.
    + intros []. split; by eexists.
  - assert (Hnot : ~ (specified proxy_host /\ specified proxy_port)).
    { rewrite <- truthy_both, E. done. }
    rewrite decide_False by done. rewrite PyFacts.app_nil_r.
    split_and!; try done.
    + split; [|done]. intros (h & p & Heq).
      symmetry in Heq. by apply app_eq_self in Heq.
    + intros h p -> -> Hh Hp. destruct Hnot. split; by eexists.
Qed.

(** The flags are added for a concrete host and port, and are not when
    the port is missing. *)
Lemma proxy_flags_iff_witness :
  install_cmd "/bin/lp" "beats" None (Some "proxy") (Some "3128") None
  = install_cmd "/bin/lp" "beats" None None None None +:+ " " +:+
    proxy_flags "proxy" "3128"
  /\ install_cmd "/bin/lp" "beats" None (Some "proxy") None None
     = install_cmd "/bin/lp" "beats" None None None None.
Proof.
  split.
  - apply (proxy_flags_iff "/bin/lp" "beats" None (Some "proxy") (Some "3128") None);
      [reflexivity | reflexivity | discriminate | discriminate].
  - apply (proxy_flags_iff "/bin/lp" "beats" None (Some "proxy") None None).
Defined.

(** ** The reconciler *)

Section ReconcilerFacts.

Context {World : Type}.
Variable run_command : World -> string -> (Z * string * string) * World.

Implicit Types (module : AnsibleModule) (w : World) (env : Env World).

Local Ltac run_monad :=
  unfold mbind, M_bind, mret, M_ret, call_run_command, fail_json,
    exit_json, raise; simpl.

Lemma is_plugin_present_eq module plugin_bin plugin_name env :
  is_plugin_present run_command module plugin_bin plugin_name env
  = (Ret ((run_command (world env) (list_cmd plugin_bin plugin_name)).1.1.1 =? 0),
     {| world := (run_command (world env) (list_cmd plugin_bin plugin_name)).2;
        executed := executed env ++ [list_cmd plugin_bin plugin_name] |}).
Proof.
  unfold is_plugin_present, list_cmd, list_cmd_args. run_monad.
  by destruct (run_command _ _) as [[[rc out] err] w'].
Qed.

Lemma install_plugin_eq module plugin_bin plugin_name
    version proxy_host proxy_port source env :
  install_plugin run_command module plugin_bin plugin_name
    version proxy_host proxy_port source env
  = run_step run_command module (install_cmd plugin_bin plugin_name
                       version proxy_host proxy_port source) env.
Proof.
  unfold install_plugin, run_step, install_cmd. run_monad.
  destruct (check_mode module); [done|].
  destruct (run_command _ _) as [[[rc out] err] w']; simpl.
  by destruct (rc =? 0).
Qed.

Lemma remove_plugin_eq module plugin_bin plugin_name env :
  remove_plugin run_command module plugin_bin plugin_name env
  = run_step run_command module (remove_cmd plugin_bin plugin_name) env.
Proof.
  unfold remove_plugin, run_step, remove_cmd, remove_cmd_args. run_monad.
  destruct (check_mode module); [done|].
  destruct (run_command _ _) as [[[rc out] err] w']; simpl.
  by destruct (rc =? 0).
Qed.

Lemma main_eq module env :
  main run_command module env
  = let p := params module in
    let r := run_command (world env)
               (list_cmd (Params.plugin_bin p) (Params.name p)) in
    let env1 := {| world := r.2;
                   executed := executed env ++
                     [list_cmd (Params.plugin_bin p) (Params.name p)] |} in
    match decide_action (r.1.1.1 =? 0) (Params.state p) with
    | Some NoOp =>
        (ExitJson (noop_result (Params.name p) (Params.state p)), env1)
    | Some _ => corrective_step run_command module (corrective_cmd module) env1
    | None => (Raised UnboundLocalError, env1)
    end.
Proof.
  unfold main. unfold mbind at 1, M_bind at 1.
  rewrite is_plugin_present_eq. cbv zeta.
  destruct (run_command (world env) _) as [[[rc0 out0] err0] w1]. simpl.
  unfold decide_action, corrective_cmd, corrective_step.
  destruct (rc0 =? 0); simpl;
    destruct (String.eqb (Params.state (params module)) "present") eqn:Ep;
    destruct (String.eqb (Params.state (params module)) "absent") eqn:Ea;
    simpl; run_monad; try rewrite Ep; try rewrite Ea; try done;
    rewrite ?install_plugin_eq, ?remove_plugin_eq; unfold run_step;
    destruct (check_mode module); try done; simpl;
    destruct (run_command w1 _) as [[[rc out] err] w2]; simpl;
    by destruct (rc =? 0).
Qed.

Lemma reconcile_eq module w :
  reconcile run_command module w
  = match decide_action (probed_present run_command module w)
            (Params.state (params module)) with
    | Some NoOp =>
        (ExitJson (noop_result (Params.name (params module))
                     (Params.state (params module))),
         probed_env run_command module w)
    | Some _ =>
        corrective_step run_command module (corrective_cmd module)
          (probed_env run_command module w)
    | None => (Raised UnboundLocalError, probed_env run_command module w)
    end.
Proof. unfold reconcile. by rewrite main_eq. Qed.

Lemma corrective_step_eq module w :
  corrective_step run_command module (corrective_cmd module)
    (probed_env run_command module w)
  = let name := Params.name (params module) in
    let state := Params.state (params module) in
    if check_mode module
    then (ExitJson (action_result (corrective_cmd module) name state
                      "check mode" ""),
          probed_env run_command module w)
    else if corrective_rc run_command module w =? 0
    then (ExitJson (action_result (corrective_cmd module) name state
                      (corrective_out run_command module w)
                      (corrective_err run_command module w)),
          corrected_env run_command module w)
    else (FailJson (failure_result
                      (parse_error (corrective_out run_command module w))),
          corrected_env run_command module w).
Proof.
  unfold corrective_step, corrective_rc, corrective_out, corrective_err,
    corrected_env, after_corrective. simpl.
  destruct (check_mode module); [done|].
  by destruct (run_command (after_probe run_command module w) _)
    as [[[rc out] err] w2].
Qed.

Lemma changed_of_noop (name state : string) :
  changed_of (ExitJson (A:=unit) (noop_result name state)) = Some false.
Proof. reflexivity. Qed.

Lemma changed_of_action (cmd name state out err : string) :
  changed_of (ExitJson (A:=unit) (action_result cmd name state out err))
  = Some true.
Proof. reflexivity. Qed.

Lemma changed_of_corrective_step module w :
  changed_of (corrective_step run_command module (corrective_cmd module)
                (probed_env run_command module w)).1 <> Some false.
Proof.
  rewrite corrective_step_eq. cbv zeta.
  destruct (check_mode module); [done|].
  by destruct (corrective_rc run_command module w =? 0).
Qed.

Lemma decide_action_name (P : bool) (D : DesiredState) :
  decide_action P (state_name D)
  = Some (match P, D with
          | true, Present | false, Absent => NoOp
          | false, Present => Install
          | true, Absent => Remove
          end).
Proof. by destruct P, D. Qed.

Lemma corrective_cmd_name module (D : DesiredState) :
  Params.state (params module) = state_name D ->
  corrective_cmd module
  = let p := params module in
    match D with
    | Present =>
        install_cmd (Params.plugin_bin p) (Params.name p) (Params.version p)
          (Params.proxy_host p) (Params.proxy_port p) (Params.source p)
    | Absent => remove_cmd (Params.plugin_bin p) (Params.name p)
    end.
Proof. unfold corrective_cmd. intros ->. by destruct D. Qed.

(** C5. The probe runs [<plugin_bin> list <plugin_name>], once, and
    answers whether the exit code is 0: every other exit code gives
    [False], and the probe always returns (it never fails or raises). *)
Theorem probe_spec module (plugin_bin plugin_name : string) env :
  is_plugin_present run_command module plugin_bin plugin_name env
  = (Ret (bool_decide
            ((run_command (world env)
                (plugin_bin +:+ " list " +:+ plugin_name)).1.1.1 = 0)),
     {| world := (run_command (world env)
                    (plugin_bin +:+ " list " +:+ plugin_name)).2;
        executed := executed env ++
                      [plugin_bin +:+ " list " +:+ plugin_name] |}).
Proof.
  rewrite is_plugin_present_eq, list_cmd_eq. do 2 f_equal.
  destruct (Z.eqb_spec (run_command (world env)
              (plugin_bin +:+ " list " +:+ plugin_name)).1.1.1 0) as [H|H].
  - by rewrite bool_decide_eq_true_2.
  - by rewrite bool_decide_eq_false_2.
Qed.

(** C1. The decision is [NoOp] exactly for (present, Present) and
    (absent, Absent), [Install] for (absent, Present) and [Remove] for
    (present, Absent); and a run is a no-op run (it exits with
    [changed=False] having executed the probe only) exactly in the two
    [NoOp] cases, while in the other two it goes on with the
    installation, respectively the removal. *)
Theorem decision_step (P : bool) (D : DesiredState) :
  (decide_action P (state_name D) = Some NoOp
   <-> (P = true /\ D = Present) \/ (P = false /\ D = Absent)) /\
  (decide_action P (state_name D) = Some Install
   <-> P = false /\ D = Present) /\
  (decide_action P (state_name D) = Some Remove
   <-> P = true /\ D = Absent) /\
  forall module w,
    Params.state (params module) = state_name D ->
    probed_present run_command module w = P ->
    let p := params module in
    (reconcile run_command module w
     = (ExitJson (noop_result (Params.name p) (Params.state p)),
        probed_env run_command module w)
     <-> (P = true /\ D = Present) \/ (P = false /\ D = Absent)) /\
    (changed_of (reconcile run_command module w).1 = Some false
     <-> (P = true /\ D = Present) \/ (P = false /\ D = Absent)) /\
    executed (probed_env run_command module w)
    = [Params.plugin_bin p +:+ " list " +:+ Params.name p] /\
    (P = false -> D = Present ->
     reconcile run_command module w
     = corrective_step run_command module
         (install_cmd (Params.plugin_bin p) (Params.name p)
            (Params.version p) (Params.proxy_host p) (Params.proxy_port p)
            (Params.source p))
         (probed_env run_command module w)) /\
    (P = true -> D = Absent ->
     reconcile run_command module w
     = corrective_step run_command module
         (remove_cmd (Params.plugin_bin p) (Params.name p))
         (probed_env run_command module w)).
Proof.
  split_and!.
  - rewrite decide_action_name. destruct P, D; intuition congruence.
  - rewrite decide_action_name. destruct P, D; intuition congruence.
  - rewrite decide_action_name. destruct P, D; intuition congruence.
  - intros module w Hst HP p.
    pose proof (changed_of_corrective_step module w) as Hcs.
    pose proof (corrective_cmd_name module D Hst) as Hcmd.
    rewrite reconcile_eq, HP, Hst, decide_action_name.
    cbv zeta in Hcmd. fold p in Hcmd.
    destruct P, D; rewrite <- ?Hcmd; split_and!; try done;
      try (rewrite <- Hst; fold p; intuition congruence);
      try (split; [intros Heq; rewrite Heq in Hcs; done | intuition congruence]);
      try (split; [done | intuition congruence]).
Qed.

Lemma reconcile_noop module w :
  decide_action (probed_present run_command module w)
    (Params.state (params module)) = Some NoOp ->
  reconcile run_command module w
  = (ExitJson (noop_result (Params.name (params module))
                 (Params.state (params module))),
     probed_env run_command module w).
Proof. intros H. by rewrite reconcile_eq, H. Qed.

Lemma reconcile_corrective module w :
  valid_state (Params.state (params module)) ->
  decide_action (probed_present run_command module w)
    (Params.state (params module)) <> Some NoOp ->
  reconcile run_command module w
  = corrective_step run_command module (corrective_cmd module)
      (probed_env run_command module w).
Proof.
  intros [D HD]%valid_state_inv H. rewrite reconcile_eq.
  rewrite HD in *. rewrite decide_action_name in *.
  by destruct (probed_present run_command module w), D.
Qed.

Lemma decide_action_reached (state : string) :
  valid_state state ->
  decide_action (String.eqb state "present") state = Some NoOp.
Proof. by intros [-> | ->]%valid_state_iff. Qed.

(** C4. In check mode neither [install_plugin] nor [remove_plugin]
    executes a command: both return exit code 0 turned into
    [changed=True], the output ["check mode"] and an empty error
    output, and leave the host and the execution record as they were.
    A run that decides on a corrective action therefore executes the
    probe only, and exits with [changed=True], [stdout="check mode"]
    and [stderr=""]. *)
Theorem dry_run module w :
  check_mode module = true ->
  let p := params module in
  (forall plugin_bin plugin_name version proxy_host proxy_port source env,
      install_plugin run_command module plugin_bin plugin_name
        version proxy_host proxy_port source env
      = (Ret (true,
              install_cmd plugin_bin plugin_name
                version proxy_host proxy_port source,
              "check mode", ""), env)) /\
  (forall plugin_bin plugin_name env,
      remove_plugin run_command module plugin_bin plugin_name env
      = (Ret (true, remove_cmd plugin_bin plugin_name, "check mode", ""),
         env)) /\
  (valid_state (Params.state p) ->
   decide_action (probed_present run_command module w) (Params.state p)
     <> Some NoOp ->
   exists kw,
     reconcile run_command module w
     = (ExitJson kw,
        {| world := after_probe run_command module w;
           executed := [Params.plugin_bin p +:+ " list " +:+ Params.name p] |})
     /\ kw !! "changed" = Some (VBool true)
     /\ kw !! "stdout" = Some (VStr "check mode")
     /\ kw !! "stderr" = Some (VStr "")
     /\ kw !! "cmd" = Some (VStr (corrective_cmd module))).
Proof.
  intros Hcheck p. split_and!.
  - intros. rewrite install_plugin_eq. unfold run_step. by rewrite Hcheck.
  - intros. rewrite remove_plugin_eq. unfold run_step. by rewrite Hcheck.
  - intros Hvalid Hact.
    rewrite (reconcile_corrective module w Hvalid Hact), corrective_step_eq.
    cbv zeta. rewrite Hcheck. eexists. split; [reflexivity|]. done.
Qed.

(** C6. A run fails exactly when, outside check mode, the corrective
    command it decided on exits with a code other than 0.  The failure
    carries one field, [msg], holding the reason parsed out of the
    command's output; the command has been executed once, right after
    the probe, and nothing is executed after it.  [install_plugin] and
    [remove_plugin] fail in this way as soon as their command exits
    with a code other than 0, and a run never raises. *)
Theorem corrective_failure module w :
  valid_state (Params.state (params module)) ->
  let p := params module in
  (forall kw env,
      reconcile run_command module w = (FailJson kw, env)
      <-> check_mode module = false /\
          decide_action (probed_present run_command module w)
            (Params.state p) <> Some NoOp /\
          corrective_rc run_command module w <> 0 /\
          kw = failure_result
                 (parse_error (corrective_out run_command module w)) /\
          env = {| world := after_corrective run_command module w;
                   executed := [list_cmd (Params.plugin_bin p) (Params.name p);
                                corrective_cmd module] |}) /\
  (forall reason,
      failure_result reason !! "msg" = Some (VStr reason) /\
      dom (failure_result reason) = {["msg"]}) /\
  (forall e, (reconcile run_command module w).1 <> Raised e) /\
  (forall cmd env,
      check_mode module = false ->
      (run_command (world env) cmd).1.1.1 <> 0 ->
      let failed :=
        (FailJson (failure_result
                     (parse_error (run_command (world env) cmd).1.1.2)),
         {| world := (run_command (world env) cmd).2;
            executed := executed env ++ [cmd] |}) in
      (forall plugin_bin plugin_name version proxy_host proxy_port source,
          cmd = install_cmd plugin_bin plugin_name
                  version proxy_host proxy_port source ->
          install_plugin run_command module plugin_bin plugin_name
            version proxy_host proxy_port source env = failed) /\
      (forall plugin_bin plugin_name,
          cmd = remove_cmd plugin_bin plugin_name ->
          remove_plugin run_command module plugin_bin plugin_name env
          = failed)).
Proof.
  intros Hvalid p. split_and!.
  - intros kw env.
    destruct (decide (decide_action (probed_present run_command module w)
                        (Params.state p) = Some NoOp)) as [Hno|Hact].
    + rewrite (reconcile_noop module w Hno). split; [done|tauto].
    + rewrite (reconcile_corrective module w Hvalid Hact), corrective_step_eq.
      cbv zeta. destruct (check_mode module).
      { split; [done|]. by intros [? _]. }
      destruct (Z.eqb_spec (corrective_rc run_command module w) 0) as [Hrc|Hrc].
      { split; [done|]. by intros (_ & _ & ? & _). }
      split.
      * intros [= <- <-]. done.
      * intros (_ & _ & _ & -> & ->). done.
  - intros reason. split; [reflexivity|]. apply dom_singleton_L.
  - intros e.
    destruct (decide (decide_action (probed_present run_command module w)
                        (Params.state p) = Some NoOp)) as [Hno|Hact].
    + by rewrite (reconcile_noop module w Hno).
    + rewrite (reconcile_corrective module w Hvalid Hact), corrective_step_eq.
      cbv zeta. destruct (check_mode module); [done|].
      by destruct (corrective_rc run_command module w =? 0).
  - intros cmd env Hcheck Hrc failed. subst failed.
    apply Z.eqb_neq in Hrc. split.
    + intros * ->. rewrite install_plugin_eq. unfold run_step.
      by rewrite Hcheck, Hrc.
    + intros * ->. rewrite remove_plugin_eq. unfold run_step.
      by rewrite Hcheck, Hrc.
Qed.

(** C8, as amended.  When a run reports [changed=True], a corrective
    action was decided and the report carries its command line as [cmd]; outside
    check mode that command was executed, once, right after the probe,
    and exited with 0, while in check mode only the probe was executed.
    When the decision is a no-op, the run reports [changed=False] with
    the fields [changed], [name] and [state] only: no [cmd], no
    [stdout], no [stderr]. *)
Theorem changed_invariant module w :
  valid_state (Params.state (params module)) ->
  let p := params module in
  let P := probed_present run_command module w in
  (changed_of (reconcile run_command module w).1 = Some true ->
   decide_action P (Params.state p) <> Some NoOp /\
   (exists out err,
       (reconcile run_command module w).1
       = ExitJson (action_result (corrective_cmd module)
                     (Params.name p) (Params.state p) out err)) /\
   (check_mode module = false ->
    corrective_rc run_command module w = 0 /\
    (reconcile run_command module w).2
    = {| world := after_corrective run_command module w;
         executed := [list_cmd (Params.plugin_bin p) (Params.name p);
                      corrective_cmd module] |}) /\
   (check_mode module = true ->
    (reconcile run_command module w).2
    = {| world := after_probe run_command module w;
         executed := [list_cmd (Params.plugin_bin p) (Params.name p)] |})) /\
  (decide_action P (Params.state p) = Some NoOp ->
   exists kw,
     reconcile run_command module w
     = (ExitJson kw,
        {| world := after_probe run_command module w;
           executed := [list_cmd (Params.plugin_bin p) (Params.name p)] |})
     /\ kw !! "changed" = Some (VBool false)
     /\ kw !! "cmd" = None /\ kw !! "stdout" = None /\ kw !! "stderr" = None
     /\ kw !! "name" = Some (VStr (Params.name p))
     /\ kw !! "state" = Some (VStr (Params.state p))) /\
  (forall cmd name state out err,
      action_result cmd name state out err !! "cmd" = Some (VStr cmd)).
Proof.
  intros Hvalid p P. split_and!.
  - destruct (decide (decide_action P (Params.state p) = Some NoOp))
      as [Hno|Hact].
    { by rewrite (reconcile_noop module w Hno). }
    rewrite (reconcile_corrective module w Hvalid Hact), corrective_step_eq.
    cbv zeta. destruct (check_mode module).
    { intros _. split_and!; [done|by eexists _, _|done|done]. }
    destruct (Z.eqb_spec (corrective_rc run_command module w) 0) as [Hrc|Hrc].
    + intros _. split_and!; [done|by eexists _, _|done|done].
    + done.
  - intros Hno. rewrite (reconcile_noop module w Hno).
    eexists. split; [reflexivity|]. done.
  - done.
Qed.

(** C9, as amended.  Outside check mode, when the [list] command is
    read-only and reports, after a corrective command that exited with
    0, the presence that [state] asks for, a run that exits normally is
    followed by a run that is a no-op: it executes the probe only and
    reports [changed=False]. *)
Theorem idempotence module w :
  valid_state (Params.state (params module)) ->
  check_mode module = false ->
  list_is_read_only run_command module ->
  list_reflects_mutation run_command module ->
  (exists kw, (reconcile run_command module w).1 = ExitJson kw) ->
  let p := params module in
  let w' := world (reconcile run_command module w).2 in
  reconcile run_command module w'
  = (ExitJson (noop_result (Params.name p) (Params.state p)),
     {| world := after_probe run_command module w';
        executed := [list_cmd (Params.plugin_bin p) (Params.name p)] |})
  /\ second_run_unchanged run_command module w.
Proof.
  intros Hvalid Hcheck Hro Hmut [kw Hkw] p w'.
  assert (Hsecond :
    decide_action (probed_present run_command module w') (Params.state p)
    = Some NoOp).
  { subst w'.
    destruct (decide (decide_action (probed_present run_command module w)
                        (Params.state p) = Some NoOp)) as [Hno|Hact].
    - rewrite (reconcile_noop module w Hno). simpl. by rewrite Hro.
    - revert Hkw.
      rewrite (reconcile_corrective module w Hvalid Hact), corrective_step_eq.
      cbv zeta. rewrite Hcheck.
      destruct (Z.eqb_spec (corrective_rc run_command module w) 0)
        as [Hrc|Hrc]; [intros _|done].
      simpl. unfold after_corrective.
      rewrite (Hmut (after_probe run_command module w) Hrc).
      by apply decide_action_reached. }
  split.
  - by rewrite (reconcile_noop module w' Hsecond).
  - unfold second_run_unchanged. fold w'.
    by rewrite (reconcile_noop module w' Hsecond).
Qed.

(** C10. For the command line of an installation an empty string is
    the same as a parameter that was not given: an empty version adds
    no [--version], an empty proxy host or an empty proxy port adds no
    proxy flag, and with an empty source the plugin name is the install
    source; [install_plugin] then behaves as without the parameter. *)
Theorem empty_string_is_unspecified module (plugin_bin plugin_name : string)
    (version proxy_host proxy_port source : option string) :
  install_cmd_args plugin_bin plugin_name (Some "") proxy_host proxy_port source
  = install_cmd_args plugin_bin plugin_name None proxy_host proxy_port source /\
  install_cmd_args plugin_bin plugin_name version (Some "") proxy_port source
  = install_cmd_args plugin_bin plugin_name version None proxy_port source /\
  install_cmd_args plugin_bin plugin_name version proxy_host (Some "") source
  = install_cmd_args plugin_bin plugin_name version proxy_host None source /\
  install_cmd_args plugin_bin plugin_name version (Some "") proxy_port source
  = install_cmd_args plugin_bin plugin_name version None None source /\
  install_cmd_args plugin_bin plugin_name version proxy_host (Some "") source
  = install_cmd_args plugin_bin plugin_name version None None source /\
  install_cmd_args plugin_bin plugin_name version proxy_host proxy_port (Some "")
  = install_cmd_args plugin_bin plugin_name version proxy_host proxy_port None /\
  install_cmd_args plugin_bin plugin_name version proxy_host proxy_port (Some "")
    !! 2%nat = Some plugin_name /\
  install_cmd_args plugin_bin plugin_name (Some "") None None source
  = [plugin_bin; "install"; source_token plugin_name source] /\
  (forall env,
      install_plugin run_command module plugin_bin plugin_name
        (Some "") proxy_host proxy_port source env
      = install_plugin run_command module plugin_bin plugin_name
          None proxy_host proxy_port source env) /\
  (forall env,
      install_plugin run_command module plugin_bin plugin_name
        version (Some "") proxy_port source env
      = install_plugin run_command module plugin_bin plugin_name
          version None proxy_port source env) /\
  (forall env,
      install_plugin run_command module plugin_bin plugin_name
        version proxy_host (Some "") source env
      = install_plugin run_command module plugin_bin plugin_name
          version proxy_host None source env) /\
  (forall env,
      install_plugin run_command module plugin_bin plugin_name
        version proxy_host proxy_port (Some "") env
      = install_plugin run_command module plugin_bin plugin_name
          version proxy_host proxy_port None env).
Proof.
  assert (Hh : forall v p s,
    install_cmd_args plugin_bin plugin_name v (Some "") p s
    = install_cmd_args plugin_bin plugin_name v None None s).
  { intros. rewrite (install_cmd_args_proxy _ _ _ (Some "")).
    cbn [Py.truthy String.eqb negb andb]. apply app_nil_r. }
  assert (Hp : forall v h s,
    install_cmd_args plugin_bin plugin_name v h (Some "") s
    = install_cmd_args plugin_bin plugin_name v None None s).
  { intros. rewrite (install_cmd_args_proxy _ _ _ _ (Some "")).
    cbn [Py.truthy String.eqb negb]. rewrite andb_false_r. apply app_nil_r. }
  assert (Hp' : forall v h s,
    install_cmd_args plugin_bin plugin_name v h None s
    = install_cmd_args plugin_bin plugin_name v None None s).
  { intros. rewrite (install_cmd_args_proxy _ _ _ _ None).
    cbn [Py.truthy]. rewrite andb_false_r. apply app_nil_r. }
  split_and!.
  - reflexivity.
  - reflexivity.
  - by rewrite Hp, (Hp' _ proxy_host).
  - apply Hh.
  - apply Hp.
  - reflexivity.
  - unfold install_cmd_args.
    by destruct (Py.truthy version),
         (Py.truthy proxy_host && Py.truthy proxy_port).
  - unfold install_cmd_args, source_token. rewrite subcommand_present.
    destruct source as [s|]; [|reflexivity]. cbn [Py.truthy Py.fmt_s].
    destruct (decide (s = "")) as [->|Hs]; [reflexivity|].
    by rewrite (proj2 (String.eqb_neq s "") Hs).
  - reflexivity.
  - reflexivity.
  - intros env. unfold install_plugin. by rewrite Hp, (Hp' _ proxy_host).
  - reflexivity.
Qed.

End ReconcilerFacts.

(** ** The module against the two executables *)

Example parse_error_disk_full :
  parse_error "ERROR: Installation aborted, reason: disk full" = "disk full".
Proof. reflexivity. Qed.

Example parse_error_first_marker :
  parse_error "a reason:  b reason: c  " = "b reason: c".
Proof. reflexivity. Qed.

Example parse_error_no_marker :
  parse_error "ERROR: Installation aborted" = "ERROR: Installation aborted".
Proof. reflexivity. Qed.

Example install_cmd_beats :
  install_cmd "/bin/lp" "logstash-input-beats" None None None None
  = "/bin/lp install logstash-input-beats".
Proof. reflexivity. Qed.

Example install_cmd_syslog :
  install_cmd "/bin/lp" "logstash-input-syslog" (Some "3.2.0") None None None
  = "/bin/lp install logstash-input-syslog --version 3.2.0".
Proof. reflexivity. Qed.

Example install_cmd_full :
  install_cmd "/bin/lp" "kafka" (Some "3.2.0") (Some "h") (Some "8080")
    (Some "/tmp/kafka.gem")
  = "/bin/lp install /tmp/kafka.gem --version 3.2.0 -DproxyHost=h -DproxyPort=8080".
Proof. reflexivity. Qed.

Example remove_cmd_multiline :
  remove_cmd "/bin/lp" "logstash-filter-multiline"
  = "/bin/lp remove logstash-filter-multiline".
Proof. reflexivity. Qed.

Example scenario_install :
  let r := reconcile Tool.run (Tool.module "logstash-input-beats" "present" false)
             Tool.empty in
  changed_of r.1 = Some true /\
  executed r.2
  = ["/usr/share/logstash/bin/logstash-plugin list logstash-input-beats";
     "/usr/share/logstash/bin/logstash-plugin install logstash-input-beats"] /\
  Tool.installed (world r.2) = ["logstash-input-beats"].
Proof. vm_compute. done. Qed.

Example scenario_remove :
  let r := reconcile Tool.run
             (Tool.module "logstash-filter-multiline" "absent" false)
             {| Tool.installed := ["logstash-filter-multiline"];
                Tool.outages := 0 |} in
  changed_of r.1 = Some true /\
  executed r.2
  = ["/usr/share/logstash/bin/logstash-plugin list logstash-filter-multiline";
     "/usr/share/logstash/bin/logstash-plugin remove logstash-filter-multiline"] /\
  Tool.installed (world r.2) = [].
Proof. vm_compute. done. Qed.

Example scenario_failure :
  (reconcile Tool.run (Tool.module "logstash-input-beats" "present" false)
     Tool.offline).1
  = FailJson (failure_result "mirror unreachable").
Proof. vm_compute. reflexivity. Qed.

Lemma tool_list (w : Tool.t) :
  Tool.run w (list_cmd "/usr/share/logstash/bin/logstash-plugin"
                "logstash-input-beats")
  = (if bool_decide ("logstash-input-beats" ∈ Tool.installed w)
     then ((0, "logstash-input-beats", ""), w)
     else ((1, "ERROR: No plugins found", ""), w)).
Proof. reflexivity. Qed.

Lemma tool_list_read_only (check : bool) :
  list_is_read_only Tool.run (Tool.module "logstash-input-beats" "present" check).
Proof.
  intros w. unfold probed_present, probe_rc, after_probe.
  cbn [params Tool.module Tool.default_params Params.plugin_bin Params.name].
  rewrite (tool_list w).
  destruct (bool_decide _) eqn:E; cbn [fst snd]; by rewrite tool_list, E.
Qed.

Lemma tool_list_reflects_mutation (check : bool) :
  list_reflects_mutation Tool.run
    (Tool.module "logstash-input-beats" "present" check).
Proof.
  intros w.
  change (Tool.run w _) with
    (match Tool.outages w with
     | S k =>
         ((1, "ERROR: Installation aborted, reason: mirror unreachable ", ""),
          {| Tool.installed := Tool.installed w; Tool.outages := k |})
     | O =>
         ((0, "Installation successful", ""),
          {| Tool.installed := "logstash-input-beats" :: Tool.installed w;
             Tool.outages := O |})
     end).
  destruct (Tool.outages w); [intros _|done].
  unfold probed_present, probe_rc.
  cbn [params Tool.module Tool.default_params Params.plugin_bin Params.name snd].
  rewrite tool_list. cbn [Tool.installed].
  rewrite bool_decide_eq_true_2; [done|]. left.
Qed.

Lemma forgetful_list_reflects_mutation (check : bool) :
  list_reflects_mutation Forgetful.run
    (Tool.module "logstash-input-beats" "present" check).
Proof. intros w _. reflexivity. Qed.

(** The plugin is absent and wanted: the run goes on with the
    installation. *)
Lemma decision_step_witness :
  let m := Tool.module "logstash-input-beats" "present" false in
  reconcile Tool.run m Tool.empty
  = corrective_step Tool.run m
      (install_cmd "/usr/share/logstash/bin/logstash-plugin"
         "logstash-input-beats" None None None None)
      (probed_env Tool.run m Tool.empty).
Proof.
  intros m.
  destruct (decision_step Tool.run false Present) as (_ & _ & _ & H).
  destruct (H m Tool.empty) as (_ & _ & _ & Hinstall & _);
    [reflexivity | vm_compute; reflexivity |].
  apply Hinstall; reflexivity.
Defined.

(** A dry run on a host that lacks the plugin. *)
Lemma dry_run_witness :
  let m := Tool.module "logstash-input-beats" "present" true in
  exists kw,
    reconcile Tool.run m Tool.empty
    = (ExitJson kw,
       {| world := Tool.empty;
          executed :=
            ["/usr/share/logstash/bin/logstash-plugin list logstash-input-beats"] |})
    /\ kw !! "changed" = Some (VBool true)
    /\ kw !! "stdout" = Some (VStr "check mode")
    /\ kw !! "stderr" = Some (VStr "")
    /\ kw !! "cmd"
       = Some (VStr "/usr/share/logstash/bin/logstash-plugin install logstash-input-beats").
Proof.
  intros m.
  destruct (dry_run Tool.run m Tool.empty) as (_ & _ & H); [reflexivity|].
  apply H.
  - apply (valid_state_name Present).
  - vm_compute. discriminate.
Defined.

(** The mirror is out of reach: the run fails with the parsed reason. *)
Lemma corrective_failure_witness :
  reconcile Tool.run (Tool.module "logstash-input-beats" "present" false)
    Tool.offline
  = (FailJson (failure_result "mirror unreachable"),
     {| world := Tool.empty;
        executed :=
          ["/usr/share/logstash/bin/logstash-plugin list logstash-input-beats";
           "/usr/share/logstash/bin/logstash-plugin install logstash-input-beats"] |}).
Proof.
  destruct (corrective_failure Tool.run
              (Tool.module "logstash-input-beats" "present" false) Tool.offline)
    as (H & _); [apply (valid_state_name Present)|].
  apply H. split_and!.
  - reflexivity.
  - vm_compute. discriminate.
  - vm_compute. discriminate.
  - reflexivity.
  - reflexivity.
Defined.

(** A successful installation: [changed=True], the probe and the
    installation executed, the installation exited with 0. *)
Lemma changed_invariant_witness :
  let m := Tool.module "logstash-input-beats" "present" false in
  corrective_rc Tool.run m Tool.empty = 0 /\
  (reconcile Tool.run m Tool.empty).2
  = {| world := after_corrective Tool.run m Tool.empty;
       executed :=
         [list_cmd "/usr/share/logstash/bin/logstash-plugin" "logstash-input-beats";
          corrective_cmd m] |}.
Proof.
  intros m.
  destruct (changed_invariant Tool.run m Tool.empty) as (H & _);
    [apply (valid_state_name Present)|].
  destruct H as (_ & _ & Hreal & _); [vm_compute; reflexivity|].
  apply Hreal. reflexivity.
Defined.

(** C8 fails as stated.  In check mode, on a host that lacks the wanted
    plugin, the run reports [changed=True] although the probe is the only
    command that was executed: the corrective command was not issued. *)
Lemma changed_without_command :
  let m := Tool.module "logstash-input-beats" "present" true in
  let r := reconcile Tool.run m Tool.empty in
  valid_state (Params.state (params m)) /\
  changed_of r.1 = Some true /\
  executed r.2
  = ["/usr/share/logstash/bin/logstash-plugin list logstash-input-beats"] /\
  (corrective_cmd m ∉ executed r.2) /\
  world r.2 = Tool.empty.
Proof.
  cbv zeta. split_and!.
  - apply (valid_state_name Present).
  - vm_compute. reflexivity.
  - vm_compute. reflexivity.
  - apply not_elem_of_cons. split; [|apply not_elem_of_nil].
    vm_compute. discriminate.
  - vm_compute. reflexivity.
Qed.

(** A second run after a successful installation is a no-op. *)
Lemma idempotence_witness :
  let m := Tool.module "logstash-input-beats" "present" false in
  second_run_unchanged Tool.run m Tool.empty.
Proof.
  intros m.
  apply (idempotence Tool.run m Tool.empty).
  - apply (valid_state_name Present).
  - reflexivity.
  - apply tool_list_read_only.
  - apply tool_list_reflects_mutation.
  - eexists. vm_compute. reflexivity.
Defined.

(** C9 fails as stated.  With a [list] command that reflects every
    successful corrective command: two runs in check mode both report
    [changed=True]; a run that fails because the mirror is out of reach is
    followed by a run that reports [changed=True]; and when [list] is not
    read-only a no-op run can be followed by a run that reports
    [changed=True]. *)
Lemma idempotence_counterexample :
  (let m := Tool.module "logstash-input-beats" "present" true in
   valid_state (Params.state (params m)) /\
   list_reflects_mutation Tool.run m /\
   changed_of (reconcile Tool.run m Tool.empty).1 = Some true /\
   changed_of (reconcile Tool.run m
                 (world (reconcile Tool.run m Tool.empty).2)).1 = Some true /\
   ~ second_run_unchanged Tool.run m Tool.empty) /\
  (let m := Tool.module "logstash-input-beats" "present" false in
   valid_state (Params.state (params m)) /\
   list_reflects_mutation Tool.run m /\
   changed_of (reconcile Tool.run m Tool.offline).1 = None /\
   changed_of (reconcile Tool.run m
                 (world (reconcile Tool.run m Tool.offline).2)).1 = Some true /\
   ~ second_run_unchanged Tool.run m Tool.offline) /\
  (let m := Tool.module "logstash-input-beats" "present" false in
   valid_state (Params.state (params m)) /\
   list_reflects_mutation Forgetful.run m /\
   changed_of (reconcile Forgetful.run m true).1 = Some false /\
   changed_of (reconcile Forgetful.run m
                 (world (reconcile Forgetful.run m true).2)).1 = Some true /\
   ~ second_run_unchanged Forgetful.run m true).
Proof.
  cbv zeta. split_and!.
  - apply (valid_state_name Present).
  - apply tool_list_reflects_mutation.
  - vm_compute. reflexivity.
  - vm_compute. reflexivity.
  - unfold second_run_unchanged. vm_compute. discriminate.
  - apply (valid_state_name Present).
  - apply tool_list_reflects_mutation.
  - vm_compute. reflexivity.
  - vm_compute. reflexivity.
  - unfold second_run_unchanged. vm_compute. discriminate.
  - apply (valid_state_name Present).
  - apply forgetful_list_reflects_mutation.
  - vm_compute. reflexivity.
  - vm_compute. reflexivity.
  - unfold second_run_unchanged. vm_compute. discriminate.
Qed.

(** * Further properties *)

(** ** The failure message *)

Lemma lstrip_all_space (s : string) :
  Py.all_space (Py.lstrip s) = Py.all_space s.
Proof.
  induction s as [|c s IH]; [done|]. simpl.
  destruct (Py.isspace c) eqn:E; [done|]. simpl. by rewrite E.
Qed.

Lemma rstrip_empty_iff (s : string) :
  Py.rstrip s = "" <-> Py.all_space s = true.
Proof.
  induction s as [|c s IH]; [done|]. simpl.
  destruct (Py.rstrip s) as [|c' s'] eqn:E.
  - destruct (Py.isspace c); simpl; [tauto|]. split; discriminate.
  - split; [discriminate|]. intros [_ H]%andb_true_iff.
    apply IH in H. discriminate.
Qed.

Lemma strip_empty_iff (s : string) :
  Py.strip s = "" <-> Py.all_space s = true.
Proof. unfold Py.strip. by rewrite rstrip_empty_iff, lstrip_all_space. Qed.

(** X1. The message [parse_error] extracts is a contiguous part of the
    output it is given: nothing is added to it or rewritten, and it is
    never longer than the output. *)
Theorem parse_error_part_of_output (out : string) :
  (exists before after, out = before +:+ parse_error out +:+ after) /\
  (Py.len (parse_error out) <= Py.len out)%nat.
Proof.
  assert (H : exists before after, out = before +:+ parse_error out +:+ after).
  { destruct (Py.index out "reason: ") as [i|] eqn:E.
    - destruct (PyFacts.index_Some _ _ _ E) as (pre & post & Hout & Hlen & Hmin).
      rewrite (parse_error_found out pre post Hout)
        by (intros pre' post' H'; rewrite Hlen; by eapply Hmin).
      destruct (PyFacts.strip_spec post) as (l & r & Hpost & _).
      exists (pre +:+ "reason: " +:+ l), r.
      by rewrite !PyFacts.app_assoc, <- Hpost.
    - exists "", "". unfold parse_error. rewrite E.
      by rewrite PyFacts.app_nil_l, PyFacts.app_nil_r. }
  split; [done|]. destruct H as (a & b & H).
  rewrite H at 2. rewrite !PyFacts.length_app. lia.
Qed.

(** X2. The extracted message is empty exactly when the output is empty,
    or when nothing but white space follows the first marker
    ["reason: "]; white space is the class of [str.strip()], the code
    points 9 to 13, 28 to 31, 32, 133 and 160.  So the message is empty
    when a separator (28) and a no-break space (160) are all that follows
    the marker, and is not when a backspace (8) does. *)
Theorem parse_error_empty_iff (out : string) :
  (parse_error out = ""
   <-> out = "" \/
       exists pre post,
         out = pre +:+ "reason: " +:+ post /\
         (forall pre' post', out = pre' +:+ "reason: " +:+ post' ->
                             (Py.len pre <= Py.len pre')%nat) /\
         Py.all_space post = true)
  /\ (forall c,
        Py.isspace c
        = bool_decide
            (N_of_ascii c ∈ [9; 10; 11; 12; 13; 28; 29; 30; 31; 32; 133; 160]%N))
  /\ parse_error ("ERROR, reason: " +:+ String "028" (String "160" "")) = ""
  /\ parse_error ("ERROR, reason: " +:+ String "008" "")
     = String "008" "".
Proof.
  split_and!; [|apply isspace_class|reflexivity..].
  split.
  - intros Hempty. destruct (Py.index out "reason: ") as [i|] eqn:E.
    + right.
      destruct (PyFacts.index_Some _ _ _ E) as (pre & post & Hout & Hlen & Hmin).
      assert (Hfirst : forall pre' post',
                 out = pre' +:+ "reason: " +:+ post' ->
                 (Py.len pre <= Py.len pre')%nat).
      { intros pre' post' H'. rewrite Hlen. by eapply Hmin. }
      exists pre, post. split_and!; [done..|].
      apply strip_empty_iff.
      by rewrite <- (parse_error_found out pre post Hout Hfirst).
    + left. unfold parse_error in Hempty. by rewrite E in Hempty.
  - intros [-> | (pre & post & Hout & Hfirst & Hws)]; [done|].
    rewrite (parse_error_found out pre post Hout Hfirst).
    by apply strip_empty_iff.
Qed.

(** ** Command lines again *)

(** X3. With a specified source the command line of an installation
    does not mention the plugin name: two names give the same command
    line. *)
Theorem install_source_hides_name (plugin_bin name name' source : string)
    (version proxy_host proxy_port : option string) :
  source <> "" ->
  install_cmd plugin_bin name version proxy_host proxy_port (Some source)
  = install_cmd plugin_bin name' version proxy_host proxy_port (Some source)
  /\ install_cmd plugin_bin name version None None (Some source)
     = plugin_bin +:+ " install " +:+ source +:+ version_flag version.
Proof.
  intros Hs. rewrite !install_cmd_eq. unfold source_token.
  destruct (decide (source = "")) as [?|_]; [done|].
  cbn [Py.truthy andb]. by rewrite PyFacts.app_nil_r.
Qed.

Lemma install_source_hides_name_witness :
  install_cmd "/bin/lp" "logstash-input-kafka" None None None
    (Some "/path/to/my/logstash-input-kafka.gem")
  = install_cmd "/bin/lp" "anything" None None None
      (Some "/path/to/my/logstash-input-kafka.gem").
Proof.
  apply (install_source_hides_name "/bin/lp" "logstash-input-kafka" "anything"
           "/path/to/my/logstash-input-kafka.gem" None None None).
  discriminate.
Defined.

(** X4. The arguments are joined with spaces and nothing is quoted: a
    plugin name that carries [--version <v>] after a space gives the
    command line of the plain name with version [<v>], and likewise a
    name with a space in it is passed to [list] and [remove] as two
    words. *)
Theorem arguments_are_not_quoted (plugin_bin name v : string)
    (proxy_host proxy_port : option string) :
  v <> "" ->
  install_cmd plugin_bin (name +:+ " --version " +:+ v) None
    proxy_host proxy_port None
  = install_cmd plugin_bin name (Some v) proxy_host proxy_port None
  /\ list_cmd plugin_bin (name +:+ " " +:+ v)
     = list_cmd plugin_bin name +:+ " " +:+ v
  /\ remove_cmd plugin_bin (name +:+ " " +:+ v)
     = remove_cmd plugin_bin name +:+ " " +:+ v.
Proof.
  intros Hv. split_and!.
  - rewrite !install_cmd_eq. unfold source_token, version_flag.
    rewrite decide_False by done. by rewrite !PyFacts.app_assoc.
  - by rewrite !list_cmd_eq, !PyFacts.app_assoc.
  - by rewrite !remove_cmd_eq, !PyFacts.app_assoc.
Qed.

Lemma arguments_are_not_quoted_witness :
  install_cmd "/bin/lp" "logstash-input-syslog --version 3.2.0"
    None None None None
  = install_cmd "/bin/lp" "logstash-input-syslog" (Some "3.2.0")
      None None None.
Proof.
  apply (arguments_are_not_quoted "/bin/lp" "logstash-input-syslog" "3.2.0"
           None None).
  discriminate.
Defined.

(** ** Runs again *)

Section ReconcilerMore.

Context {World : Type}.
Variable run_command : World -> string -> (Z * string * string) * World.

Implicit Types (module : AnsibleModule) (w : World) (env : Env World).

Lemma corrective_step_same module module' (cmd : string) env :
  Params.name (params module) = Params.name (params module') ->
  Params.state (params module) = Params.state (params module') ->
  check_mode module = check_mode module' ->
  corrective_step run_command module cmd env
  = corrective_step run_command module' cmd env.
Proof. unfold corrective_step. by intros -> -> ->. Qed.

(** X5. The parameters [version], [proxy_host], [proxy_port] and
    [source] matter to a run only when it installs: two modules that
    agree on [name], [state], [plugin_bin] and the check mode run alike
    on a host where the decision is not the installation.  So a plugin
    that is present is left as it is whatever version is asked for, and
    a removal ignores the four parameters. *)
Theorem install_only_parameters module module' w :
  Params.name (params module) = Params.name (params module') ->
  Params.state (params module) = Params.state (params module') ->
  Params.plugin_bin (params module) = Params.plugin_bin (params module') ->
  check_mode module = check_mode module' ->
  decide_action (probed_present run_command module w)
    (Params.state (params module)) <> Some Install ->
  reconcile run_command module w = reconcile run_command module' w.
Proof.
  intros Hname Hstate Hbin Hcheck Hact.
  assert (HP : probed_present run_command module' w
               = probed_present run_command module w).
  { unfold probed_present, probe_rc. by rewrite Hname, Hbin. }
  assert (Henv : probed_env run_command module' w
                 = probed_env run_command module w).
  { unfold probed_env, after_probe. by rewrite Hname, Hbin. }
  rewrite !reconcile_eq, HP, Henv, <- Hname, <- Hstate.
  destruct (decide_action _ _) as [[| |]|] eqn:E; try done.
  assert (Hcmd : corrective_cmd module = corrective_cmd module').
  { unfold decide_action in E. unfold corrective_cmd.
    rewrite <- Hstate, <- Hname, <- Hbin.
    destruct (String.eqb (Params.state (params module)) "present"); [|done].
    by destruct (_ || _). }
  rewrite <- Hcmd. by apply corrective_step_same.
Qed.

(** X6. Every run with a valid state executes the probe first, on the
    host it is started on and in check mode too, and at most one more
    command: the corrective command line, when the decision is not a
    no-op and the module is not in check mode. *)
Theorem run_trace module w :
  valid_state (Params.state (params module)) ->
  let p := params module in
  let quiet :=
    bool_decide (decide_action (probed_present run_command module w)
                   (Params.state p) = Some NoOp)
    || check_mode module in
  executed (reconcile run_command module w).2
  = list_cmd (Params.plugin_bin p) (Params.name p)
    :: (if quiet then [] else [corrective_cmd module]) /\
  world (reconcile run_command module w).2
  = (if quiet then after_probe run_command module w
     else after_corrective run_command module w).
Proof.
  intros Hvalid p quiet. subst quiet.
  destruct (decide (decide_action (probed_present run_command module w)
                      (Params.state p) = Some NoOp)) as [Hno|Hact].
  - rewrite (reconcile_noop run_command module w Hno).
    by rewrite bool_decide_eq_true_2.
  - rewrite (reconcile_corrective run_command module w Hvalid Hact),
      corrective_step_eq.
    rewrite bool_decide_eq_false_2 by done. cbv zeta.
    destruct (check_mode module); [done|].
    by destruct (corrective_rc run_command module w =? 0).
Qed.

(** X7. Check mode predicts the real run: unless the real run fails,
    the run in check mode exits with the same [changed], [cmd], [name]
    and [state]. *)
Theorem check_mode_predicts (p : Params.t) w :
  valid_state (Params.state p) ->
  let dry := {| params := p; check_mode := true |} in
  let real := {| params := p; check_mode := false |} in
  (forall kw, (reconcile run_command real w).1 <> FailJson kw) ->
  exists kw kw',
    (reconcile run_command dry w).1 = ExitJson kw /\
    (reconcile run_command real w).1 = ExitJson kw' /\
    kw !! "changed" = kw' !! "changed" /\
    kw !! "cmd" = kw' !! "cmd" /\
    kw !! "name" = kw' !! "name" /\
    kw !! "state" = kw' !! "state".
Proof.
  intros Hvalid dry real.
  destruct (decide (decide_action (probed_present run_command real w)
                      (Params.state p) = Some NoOp)) as [Hno|Hact].
  - intros _.
    rewrite (reconcile_noop run_command real w Hno),
            (reconcile_noop run_command dry w Hno).
    by eexists _, _.
  - rewrite (reconcile_corrective run_command real w Hvalid Hact),
            (reconcile_corrective run_command dry w Hvalid Hact),
            !corrective_step_eq.
    cbv zeta. cbn [check_mode dry real].
    destruct (corrective_rc run_command real w =? 0).
    + intros _. by eexists _, _.
    + intros Hfail. by destruct (Hfail _ eq_refl).
Qed.

(** X8. Outside check mode, when the corrective command exits with 0,
    the run exits with [changed=True], the command line as [cmd], the
    parameters [name] and [state], and the output and error output of
    the command as they are, neither stripped nor parsed. *)
Theorem success_report module w :
  valid_state (Params.state (params module)) ->
  check_mode module = false ->
  decide_action (probed_present run_command module w)
    (Params.state (params module)) <> Some NoOp ->
  corrective_rc run_command module w = 0 ->
  let p := params module in
  exists kw,
    reconcile run_command module w
    = (ExitJson kw, corrected_env run_command module w) /\
    kw !! "changed" = Some (VBool true) /\
    kw !! "cmd" = Some (VStr (corrective_cmd module)) /\
    kw !! "name" = Some (VStr (Params.name p)) /\
    kw !! "state" = Some (VStr (Params.state p)) /\
    kw !! "stdout" = Some (VStr (corrective_out run_command module w)) /\
    kw !! "stderr" = Some (VStr (corrective_err run_command module w)) /\
    kw !! "msg" = None.
Proof.
  intros Hvalid Hcheck Hact Hrc p.
  rewrite (reconcile_corrective run_command module w Hvalid Hact),
    corrective_step_eq.
  cbv zeta. rewrite Hcheck, Hrc. by eexists.
Qed.

End ReconcilerMore.

(** X10. The probe's output is discarded: of the [list] command a run
    uses the exit code (and the host the command leaves) only.  Two
    command runners that agree on these for the probe, and on the
    corrective command line, give the same run. *)
Theorem probe_output_is_discarded {World : Type}
    (run1 run2 : World -> string -> (Z * string * string) * World)
    (module : AnsibleModule) (w : World) :
  let probe := list_cmd (Params.plugin_bin (params module))
                 (Params.name (params module)) in
  (run1 w probe).1.1.1 = (run2 w probe).1.1.1 ->
  (run1 w probe).2 = (run2 w probe).2 ->
  (forall w', run1 w' (corrective_cmd module) = run2 w' (corrective_cmd module)) ->
  reconcile run1 module w = reconcile run2 module w.
Proof.
  intros probe Hrc Hw Hcmd. subst probe.
  assert (HP : probed_present run1 module w = probed_present run2 module w).
  { unfold probed_present, probe_rc. by rewrite Hrc. }
  assert (Henv : probed_env run1 module w = probed_env run2 module w).
  { unfold probed_env, after_probe. by rewrite Hw. }
  rewrite !reconcile_eq, HP, Henv.
  destruct (decide_action _ _) as [[| |]|]; try done;
    unfold corrective_step; by rewrite Hcmd.
Qed.

(** ** The further properties on the plugin manager *)

(** A plugin that is present is left alone whatever version is asked
    for. *)
Lemma install_only_parameters_witness :
  let have := {| Tool.installed := ["logstash-input-syslog"];
                 Tool.outages := 0 |} in
  let pinned :=
    {| params :=
         {| Params.name := "logstash-input-syslog";
            Params.state := "present";
            Params.plugin_bin := "/usr/share/logstash/bin/logstash-plugin";
            Params.proxy_host := None;
            Params.proxy_port := None;
            Params.version := Some "3.2.0";
            Params.source := None |};
       check_mode := false |} in
  reconcile Tool.run pinned have
  = reconcile Tool.run (Tool.module "logstash-input-syslog" "present" false) have.
Proof.
  intros have pinned.
  apply (install_only_parameters Tool.run pinned
           (Tool.module "logstash-input-syslog" "present" false) have);
    try reflexivity.
  vm_compute. discriminate.
Defined.

Lemma run_trace_witness :
  let m := Tool.module "logstash-input-beats" "present" false in
  executed (reconcile Tool.run m Tool.empty).2
  = [list_cmd "/usr/share/logstash/bin/logstash-plugin" "logstash-input-beats";
     corrective_cmd m] /\
  world (reconcile Tool.run m Tool.empty).2
  = after_corrective Tool.run m Tool.empty.
Proof.
  intros m.
  apply (run_trace Tool.run m Tool.empty).
  apply (valid_state_name Present).
Defined.

Lemma check_mode_predicts_witness :
  let p := Tool.default_params "logstash-input-beats" "present" in
  exists kw kw',
    (reconcile Tool.run {| params := p; check_mode := true |} Tool.empty).1
    = ExitJson kw /\
    (reconcile Tool.run {| params := p; check_mode := false |} Tool.empty).1
    = ExitJson kw' /\
    kw !! "changed" = kw' !! "changed" /\
    kw !! "cmd" = kw' !! "cmd" /\
    kw !! "name" = kw' !! "name" /\
    kw !! "state" = kw' !! "state".
Proof.
  intros p.
  apply (check_mode_predicts Tool.run p Tool.empty).
  - apply (valid_state_name Present).
  - intros kw. vm_compute. discriminate.
Defined.

Lemma success_report_witness :
  let m := Tool.module "logstash-input-beats" "present" false in
  exists kw,
    reconcile Tool.run m Tool.empty
    = (ExitJson kw, corrected_env Tool.run m Tool.empty) /\
    kw !! "changed" = Some (VBool true) /\
    kw !! "cmd" = Some (VStr (corrective_cmd m)) /\
    kw !! "name" = Some (VStr "logstash-input-beats") /\
    kw !! "state" = Some (VStr "present") /\
    kw !! "stdout" = Some (VStr (corrective_out Tool.run m Tool.empty)) /\
    kw !! "stderr" = Some (VStr (corrective_err Tool.run m Tool.empty)) /\
    kw !! "msg" = None.
Proof.
  intros m.
  apply (success_report Tool.run m Tool.empty).
  - apply (valid_state_name Present).
  - reflexivity.
  - vm_compute. discriminate.
  - vm_compute. reflexivity.
Defined.

(** A plugin manager whose [list] prints nothing runs the module like
    the one that prints the plugin name. *)
Lemma probe_output_is_discarded_witness :
  let m := Tool.module "logstash-input-beats" "present" false in
  let have := {| Tool.installed := ["logstash-input-beats"];
                 Tool.outages := 0 |} in
  let silent := fun (w : Tool.t) (cmd : string) =>
    if String.eqb cmd
         "/usr/share/logstash/bin/logstash-plugin list logstash-input-beats"
    then (((Tool.run w cmd).1.1.1, "", ""), (Tool.run w cmd).2)
    else Tool.run w cmd in
  reconcile silent m have = reconcile Tool.run m have.
Proof.
  intros m have silent.
  apply (probe_output_is_discarded silent Tool.run m have); reflexivity.
Defined.
